(** * AppointmentDetails: a shallow embedding of the clinic scheduler's
      appointment panel (src/components/AppointmentDetails.tsx)

    The component is a React function component.  Its hook state becomes
    an explicit record, the objects it is handed live in a store indexed
    by references, the calls it makes on its collaborators are appended to
    a trace, and every handler is a computation in a small state-and-error
    monad over that world. *)

From Stdlib Require Import String Ascii List Bool.
From Stdlib Require Import Floats.PrimFloat.
From stdpp Require Import base option list gmap strings.

Import ListNotations.
Open Scope string_scope.

(** ** Data model *)

(** A JavaScript object reference. *)
Definition loc := positive.

Module Patient.
Record t := mk { name : string }.
End Patient.

(** Modelled from the spec: the declaration of the [Appointment] type
    ([@/types/appointment]) is not part of the component's file.  The
    fields are the ones the component reads, with the optionality the
    data model of the specification gives them; [value] is a JavaScript
    number. *)
Module Appointment.
Record t := mk {
  id : string;
  patient : Patient.t;
  psychologistId : string;
  psychologistName : string;
  roomName : string;
  date : string;
  startTime : string;
  endTime : string;
  paymentMethod : string;
  insuranceType : string;
  insuranceToken : option string;
  value : float;
  status : string
}.

(** [{ ...appointment, insuranceToken }]: a copy with one field replaced. *)
Definition spread_insuranceToken (a : t) (tok : string) : t :=
  {| id := id a;
     patient := patient a;
     psychologistId := psychologistId a;
     psychologistName := psychologistName a;
     roomName := roomName a;
     date := date a;
     startTime := startTime a;
     endTime := endTime a;
     paymentMethod := paymentMethod a;
     insuranceType := insuranceType a;
     insuranceToken := Some tok;
     value := value a;
     status := status a |}.
End Appointment.

(** Modelled from the spec: the session user of [@/context/AuthContext];
    only its [role] is read. *)
Module User.
Record t := mk { role : string }.
End User.

(** Modelled from the spec: the slot returned by [findNextAvailableSlot];
    its [date] is a date object, handed to date-fns' [format]. *)
Module Slot.
Record t (Date : Type) := mk {
  date : Date;
  startTime : string;
  endTime : string
}.
Arguments mk {Date} _ _ _.
Arguments date {Date} _.
Arguments startTime {Date} _.
Arguments endTime {Date} _.
End Slot.

(** The component's props: a reference to the appointment object.  The
    [onClose] callback of the props is an opaque function of the parent;
    calling it is recorded in the trace. *)
Record Props := { appointment : loc }.

(** The five [useState] cells. *)
Record Hooks := {
  isReschedulingOpen : bool;
  newDate : string;
  newStartTime : string;
  newEndTime : string;
  insuranceToken : string
}.

(** Everything the component calls that lives outside it. *)
Inductive Call :=
| updateAppointmentStatus (appointmentId status : string)
| deleteAppointment (appointmentId : string)
| findNextAvailableSlot (psychologistId : string)
| rescheduleAppointment (appointmentId date startTime endTime : string)
| updateAppointment (record : loc)
| toast (title description : string)
| window_confirm (message : string)
| onClose.

Record World := {
  heap : gmap loc Appointment.t;
  hooks : Hooks;
  calls : list Call
}.

(** ** The handler monad: state over [World], failing on a dangling
       reference (which a JavaScript program cannot hold). *)

Definition M (A : Type) : Type := World -> option (A * World).

#[export] Instance M_ret : MRet M := fun A x w => Some (x, w).

#[export] Instance M_bind : MBind M := fun A B k m w =>
  match m w with
  | Some (x, w') => k x w'
  | None => None
  end.

(** Read the object behind a reference. *)
Definition deref (l : loc) : M Appointment.t :=
  fun w => match heap w !! l with
           | Some a => Some (a, w)
           | None => None
           end.

(** Allocate a new object; the reference is one the store does not use. *)
Definition alloc (a : Appointment.t) : M loc :=
  fun w => let l := fresh (dom (heap w)) in
           Some (l, {| heap := <[l := a]> (heap w);
                       hooks := hooks w;
                       calls := calls w |}).

(** Perform a call on a collaborator: it is appended to the trace. *)
Definition call (c : Call) : M unit :=
  fun w => Some (tt, {| heap := heap w; hooks := hooks w;
                        calls := calls w ++ [c] |}).

Definition getHooks : M Hooks := fun w => Some (hooks w, w).

Definition setHooks (f : Hooks -> Hooks) : M unit :=
  fun w => Some (tt, {| heap := heap w; hooks := f (hooks w);
                        calls := calls w |}).

(** The five state setters returned by [useState]. *)
Definition setIsReschedulingOpen (b : bool) : M unit :=
  setHooks (fun h => {| isReschedulingOpen := b;
                        newDate := newDate h;
                        newStartTime := newStartTime h;
                        newEndTime := newEndTime h;
                        insuranceToken := insuranceToken h |}).

Definition setNewDate (s : string) : M unit :=
  setHooks (fun h => {| isReschedulingOpen := isReschedulingOpen h;
                        newDate := s;
                        newStartTime := newStartTime h;
                        newEndTime := newEndTime h;
                        insuranceToken := insuranceToken h |}).

Definition setNewStartTime (s : string) : M unit :=
  setHooks (fun h => {| isReschedulingOpen := isReschedulingOpen h;
                        newDate := newDate h;
                        newStartTime := s;
                        newEndTime := newEndTime h;
                        insuranceToken := insuranceToken h |}).

Definition setNewEndTime (s : string) : M unit :=
  setHooks (fun h => {| isReschedulingOpen := isReschedulingOpen h;
                        newDate := newDate h;
                        newStartTime := newStartTime h;
                        newEndTime := s;
                        insuranceToken := insuranceToken h |}).

Definition setInsuranceToken (s : string) : M unit :=
  setHooks (fun h => {| isReschedulingOpen := isReschedulingOpen h;
                        newDate := newDate h;
                        newStartTime := newStartTime h;
                        newEndTime := newEndTime h;
                        insuranceToken := s |}).

(** ** Pure parts of the render *)

(** [getStatusColor]: the [switch] over the status string. *)
Definition getStatusColor (status : string) : string :=
  if String.eqb status "confirmed" then "text-green-700 bg-green-100"
  else if String.eqb status "pending" then "text-yellow-700 bg-yellow-100"
  else if String.eqb status "cancelled" then "text-red-700 bg-red-100"
  else if String.eqb status "completed" then "text-blue-700 bg-blue-100"
  else "text-gray-700 bg-gray-100".

(** [getStatusText]: the [switch] over the status string. *)
Definition getStatusText (status : string) : string :=
  if String.eqb status "confirmed" then "Confirmado"
  else if String.eqb status "pending" then "Pendente"
  else if String.eqb status "cancelled" then "Cancelado"
  else if String.eqb status "completed" then "Concluído"
  else status.

(** [user?.role === r]: false when there is no user. *)
Definition role_is (user : option User.t) (r : string) : bool :=
  match user with
  | Some u => String.eqb (User.role u) r
  | None => false
  end.

Definition isAdmin (user : option User.t) : bool := role_is user "admin".
Definition isReceptionist (user : option User.t) : bool :=
  role_is user "receptionist".
Definition isPsychologist (user : option User.t) : bool :=
  role_is user "psychologist".

Definition canManage (user : option User.t) : bool :=
  isAdmin user || isReceptionist user || isPsychologist user.

Definition canEditToken (user : option User.t) : bool :=
  isAdmin user || isReceptionist user || isPsychologist user.

Definition shouldShowTokenInput (user : option User.t)
    (a : Appointment.t) : bool :=
  String.eqb (Appointment.paymentMethod a) "insurance"
  && (String.eqb (Appointment.status a) "pending"
      || String.eqb (Appointment.status a) "confirmed")
  && canEditToken user.

(** The payment-method line of the panel. *)
Definition paymentMethodLabel (a : Appointment.t) : string :=
  if String.eqb (Appointment.paymentMethod a) "private" then "Particular"
  else "Convênio (" ++ Appointment.insuranceType a ++ ")".

(** [appointment.insuranceToken || ""]: the initial value of the token
    draft; an absent or empty token gives the empty string. *)
Definition token_or_empty (tok : option string) : string :=
  match tok with
  | Some t => if String.eqb t "" then "" else t
  | None => ""
  end.

(** The initial values handed to the five [useState] calls; React uses
    them on the first render only. *)
Definition initialHooks (a : Appointment.t) : Hooks :=
  {| isReschedulingOpen := false;
     newDate := Appointment.date a;
     newStartTime := Appointment.startTime a;
     newEndTime := Appointment.endTime a;
     insuranceToken := token_or_empty (Appointment.insuranceToken a) |}.

(** ** What is rendered *)

(** The read-only grid at the top of the panel. *)
Record Details := {
  paciente : string;
  data : string;
  horario : string;
  psicologo : string;
  sala : string;
  metodoDePagamento : string;
  valor : string;
  statusClass : string;
  statusLabel : string
}.

(** The elements of the returned JSX that carry data or handlers, in
    document order. *)
Inductive Widget :=
| DetailPanel (d : Details)
| TokenEditor (value : string)
| StatusSelect (defaultValue : string) (items : list (string * string))
| ReagendarButton
| CancelarAgendamentoButton
| FecharButton
| RescheduleDialog (open : bool) (date startTime endTime : string).

(** The user interactions the JSX binds a handler to. *)
Inductive Event :=
| TokenInputChange (value : string)
| SalvarTokenClick
| StatusValueChange (value : string)
| ReagendarClick
| CancelarAgendamentoClick
| FecharClick
| DialogOpenChange (open : bool)
| NewDateChange (value : string)
| NewStartTimeChange (value : string)
| NewEndTimeChange (value : string)
| CancelarClick
| ConfirmarReagendamentoClick.

(** Which interactions an element offers.  A dialog that is not open
    shows none of its content. *)
Definition widget_offers (wd : Widget) (e : Event) : bool :=
  match wd, e with
  | TokenEditor _, TokenInputChange _ => true
  | TokenEditor _, SalvarTokenClick => true
  | StatusSelect _ items, StatusValueChange v =>
      existsb (String.eqb v) (map fst items)
  | ReagendarButton, ReagendarClick => true
  | CancelarAgendamentoButton, CancelarAgendamentoClick => true
  | FecharButton, FecharClick => true
  | RescheduleDialog true _ _ _, DialogOpenChange _ => true
  | RescheduleDialog true _ _ _, NewDateChange _ => true
  | RescheduleDialog true _ _ _, NewStartTimeChange _ => true
  | RescheduleDialog true _ _ _, NewEndTimeChange _ => true
  | RescheduleDialog true _ _ _, CancelarClick => true
  | RescheduleDialog true _ _ _, ConfirmarReagendamentoClick => true
  | _, _ => false
  end.

Definition offers (view : list Widget) (e : Event) : bool :=
  existsb (fun wd => widget_offers wd e) view.

(** ** The component *)

Section Component.

(** Library functions the component calls: the [Date] constructor on a
    string, date-fns' [format] (the Portuguese locale is fixed) and
    [Number.prototype.toFixed]. *)
Variable Date : Type.
Variable new_Date : string -> Date.
Variable format : Date -> string -> string.
Variable toFixed : float -> nat -> string.

(** What the ambient hooks and the browser answer during one render and
    the handlers it creates: the session user of [useAuth], the answer of
    the collaborator's slot query and the user's answer to
    [window.confirm]. *)
Record Env := {
  user : option User.t;
  nextAvailableSlot : string -> option (Slot.t Date);
  confirmAnswer : string -> bool
}.

(** The handlers are closures created by one render.  React renders
    again after every handler that sets state, so the hook values a
    handler closes over are the current ones, and no handler reads a cell
    after setting it: reading and writing the cells in place is the same
    behaviour. *)
Section Render.

Variable props : Props.
Variable env : Env.

Definition ask_findNextAvailableSlot (psychologistId : string)
    : M (option (Slot.t Date)) :=
  call (findNextAvailableSlot psychologistId);;
  mret (nextAvailableSlot env psychologistId).

Definition ask_window_confirm (message : string) : M bool :=
  call (window_confirm message);;
  mret (confirmAnswer env message).

Definition handleStatusChange (status : string) : M unit :=
  a ← deref (appointment props);
  call (updateAppointmentStatus (Appointment.id a) status).

Definition handleDelete : M unit :=
  yes ← ask_window_confirm
          "Tem certeza que deseja cancelar este agendamento?";
  if yes : bool then
    a ← deref (appointment props);
    call (deleteAppointment (Appointment.id a));;
    call onClose
  else mret tt.

Definition handleOpenReschedule : M unit :=
  a ← deref (appointment props);
  nextSlot ← ask_findNextAvailableSlot (Appointment.psychologistId a);
  match nextSlot with
  | Some slot =>
      setNewDate (format (Slot.date slot) "yyyy-MM-dd");;
      setNewStartTime (Slot.startTime slot);;
      setNewEndTime (Slot.endTime slot)
  | None => mret tt
  end;;
  setIsReschedulingOpen true.

Definition handleReschedule : M unit :=
  a ← deref (appointment props);
  h ← getHooks;
  call (rescheduleAppointment (Appointment.id a)
          (newDate h) (newStartTime h) (newEndTime h));;
  setIsReschedulingOpen false.

Definition handleSaveToken : M unit :=
  a ← deref (appointment props);
  h ← getHooks;
  updatedAppointment ←
    alloc (Appointment.spread_insuranceToken a (insuranceToken h));
  call (updateAppointment updatedAppointment);;
  call (toast "Token salvo" "O token do convênio foi salvo com sucesso.").

(** The handler each interaction is bound to in the JSX. *)
Definition dispatch (e : Event) : M unit :=
  match e with
  | TokenInputChange v => setInsuranceToken v
  | SalvarTokenClick => handleSaveToken
  | StatusValueChange v => handleStatusChange v
  | ReagendarClick => handleOpenReschedule
  | CancelarAgendamentoClick => handleDelete
  | FecharClick => call onClose
  | DialogOpenChange b => setIsReschedulingOpen b
  | NewDateChange v => setNewDate v
  | NewStartTimeChange v => setNewStartTime v
  | NewEndTimeChange v => setNewEndTime v
  | CancelarClick => setIsReschedulingOpen false
  | ConfirmarReagendamentoClick => handleReschedule
  end.

Definition details (a : Appointment.t) : Details :=
  {| paciente := Patient.name (Appointment.patient a);
     data := format (new_Date (Appointment.date a)) "dd 'de' MMMM 'de' yyyy";
     horario := Appointment.startTime a ++ " - " ++ Appointment.endTime a;
     psicologo := Appointment.psychologistName a;
     sala := Appointment.roomName a;
     metodoDePagamento := paymentMethodLabel a;
     valor := "R$ " ++ toFixed (Appointment.value a) 2;
     statusClass := getStatusColor (Appointment.status a);
     statusLabel := getStatusText (Appointment.status a) |}.

(** The three [SelectItem]s: value and label. *)
Definition statusItems : list (string * string) :=
  [("pending", "Pendente"); ("confirmed", "Confirmado");
   ("cancelled", "Cancelado")].

(** The returned JSX for an appointment object and the hook state. *)
Definition view (a : Appointment.t) (h : Hooks) : list Widget :=
  [DetailPanel (details a)]
  ++ (if shouldShowTokenInput (user env) a
      then [TokenEditor (insuranceToken h)] else [])
  ++ (if canManage (user env)
      then [StatusSelect (Appointment.status a) statusItems] else [])
  ++ (if canManage (user env)
      then [ReagendarButton; CancelarAgendamentoButton] else [])
  ++ [FecharButton]
  ++ [RescheduleDialog (isReschedulingOpen h)
        (newDate h) (newStartTime h) (newEndTime h)].

(** One render: read the appointment and the hook state. *)
Definition render (w : World) : option (list Widget) :=
  match heap w !! appointment props with
  | Some a => Some (view a (hooks w))
  | None => None
  end.

(** The object logged to the console on every render. *)
Definition debugLog (a : Appointment.t) : string * string * bool * bool :=
  (Appointment.paymentMethod a, Appointment.status a,
   canEditToken (user env), shouldShowTokenInput (user env) a).

End Render.

(** The first render of a component handed [props]: the hook cells take
    their initial values from the appointment object, and nothing has
    been called yet. *)
Definition mount (props : Props) (store : gmap loc Appointment.t)
    : option World :=
  match store !! appointment props with
  | Some a => Some {| heap := store; hooks := initialHooks a; calls := [] |}
  | None => None
  end.

(** Interactions dispatched one after the other, each under the
    environment of its render, whether or not the view offers them. *)
Fixpoint run (props : Props) (es : list (Env * Event)) : M unit :=
  match es with
  | [] => mret tt
  | (env, e) :: es' => dispatch props env e;; run props es'
  end.

(** A session of the user interface: every interaction is one the view
    rendered just before it offers. *)
Inductive session (props : Props)
    : World -> list (Env * Event) -> World -> Prop :=
| session_nil w : session props w [] w
| session_cons w env e v w1 es w2 :
    render props env w = Some v ->
    offers v e = true ->
    dispatch props env e w = Some (tt, w1) ->
    session props w1 es w2 ->
    session props w ((env, e) :: es) w2.

End Component.

Arguments user {Date} _.
Arguments nextAvailableSlot {Date} _ _.
Arguments confirmAnswer {Date} _ _.
Arguments handleDelete {Date} props env.
Arguments handleOpenReschedule {Date} format props env.
Arguments dispatch {Date} format props env e.
Arguments details {Date} new_Date format toFixed a.
Arguments view {Date} new_Date format toFixed env a h.
Arguments render {Date} new_Date format toFixed props env w.
Arguments debugLog {Date} env a.
Arguments run {Date} format props es.
Arguments session {Date} new_Date format toFixed props _ _ _.

(** The hook state a computation ends in, and the calls it has made. *)
Definition hooks_after (r : option (unit * World)) : option Hooks :=
  match r with Some (_, w) => Some (hooks w) | None => None end.

Definition calls_after (r : option (unit * World)) : option (list Call) :=
  match r with Some (_, w) => Some (calls w) | None => None end.

Definition is_toast (c : Call) : bool :=
  match c with toast _ _ => true | _ => false end.

(** A session user outside the three staff roles, or no user at all. *)
Definition unprivileged (user : option User.t) : Prop :=
  forall u, user = Some u ->
    User.role u <> "admin" /\ User.role u <> "receptionist"
    /\ User.role u <> "psychologist".

(** ** Concrete data for the examples *)

Module Sample.

(** An insurance appointment awaiting confirmation. *)
Definition consulta : Appointment.t :=
  {| Appointment.id := "apt-17";
     Appointment.patient := {| Patient.name := "Ana Souza" |};
     Appointment.psychologistId := "psy-3";
     Appointment.psychologistName := "Dr. Lima";
     Appointment.roomName := "Sala 2";
     Appointment.date := "2030-05-20";
     Appointment.startTime := "14:00";
     Appointment.endTime := "15:00";
     Appointment.paymentMethod := "insurance";
     Appointment.insuranceType := "Unimed";
     Appointment.insuranceToken := None;
     Appointment.value := 150%float;
     Appointment.status := "pending" |}.

(** An appointment whose payment method is neither of the two known. *)
Definition permuta : Appointment.t :=
  {| Appointment.id := "apt-18";
     Appointment.patient := {| Patient.name := "Rui Prado" |};
     Appointment.psychologistId := "psy-3";
     Appointment.psychologistName := "Dr. Lima";
     Appointment.roomName := "Sala 2";
     Appointment.date := "2030-05-21";
     Appointment.startTime := "09:00";
     Appointment.endTime := "10:00";
     Appointment.paymentMethod := "voucher";
     Appointment.insuranceType := "Bradesco";
     Appointment.insuranceToken := Some "T-1";
     Appointment.value := 90%float;
     Appointment.status := "completed" |}.

Definition props : Props := {| appointment := 5%positive |}.

Definition store : gmap loc Appointment.t :=
  <[5%positive := consulta]> (<[2%positive := permuta]> ∅).

(** Dates as already formatted strings stand in for the date library. *)
Definition new_Date (s : string) : string := s.
Definition format (d : string) (pattern : string) : string := d.
Definition toFixed (x : float) (digits : nat) : string := "150.00".

Definition slot : Slot.t string :=
  {| Slot.date := "2030-06-03";
     Slot.startTime := "10:00";
     Slot.endTime := "11:00" |}.

Definition session_of (role : option string) (next : option (Slot.t string))
    (yes : bool) : Env string :=
  {| user := match role with
             | Some r => Some {| User.role := r |}
             | None => None
             end;
     nextAvailableSlot := fun _ => next;
     confirmAnswer := fun _ => yes |}.

Definition admin_no_slot : Env string := session_of (Some "admin") None true.
Definition admin_slot : Env string :=
  session_of (Some "admin") (Some slot) true.
Definition patient : Env string := session_of (Some "patient") None true.
Definition anonymous : Env string := session_of None None true.

Definition mounted : World :=
  {| heap := store; hooks := initialHooks consulta; calls := [] |}.

(** The dialog open on a draft that ends before it starts, and a token
    typed but not saved. *)
Definition inverted : World :=
  {| heap := store;
     hooks := {| isReschedulingOpen := true;
                 newDate := "2030-05-27";
                 newStartTime := "15:00";
                 newEndTime := "14:00";
                 insuranceToken := "AUTH-123" |};
     calls := [findNextAvailableSlot "psy-3"] |}.

(** Open the dialog, edit two fields, cancel. *)
Definition edit_then_cancel : list (Env string * Event) :=
  [(admin_no_slot, ReagendarClick);
   (admin_no_slot, NewDateChange "2031-01-01");
   (admin_no_slot, NewStartTimeChange "16:00");
   (admin_no_slot, CancelarClick)].

(** The same, and then the dialog is opened again while the
    collaborator has no slot to suggest. *)
Definition edit_cancel_reopen : list (Env string * Event) :=
  (edit_then_cancel ++ [(admin_no_slot, ReagendarClick)])%list.


End Sample.

(** ** Predicates on traces and interactions *)

Definition is_deleteAppointment (c : Call) : bool :=
  match c with deleteAppointment _ => true | _ => false end.

Definition is_rescheduleAppointment (c : Call) : bool :=
  match c with rescheduleAppointment _ _ _ _ => true | _ => false end.

Definition is_findNextAvailableSlot (c : Call) : bool :=
  match c with findNextAvailableSlot _ => true | _ => false end.

Definition is_onClose_or_reschedule (c : Call) : bool :=
  match c with
  | onClose => true
  | rescheduleAppointment _ _ _ _ => true
  | _ => false
  end.

(** Every [deleteAppointment] of the trace comes directly after a
    [window.confirm] prompt; [prompted] tells whether the call before the
    head of the list was such a prompt. *)
Fixpoint deletes_prompted (prompted : bool) (cs : list Call) : bool :=
  match cs with
  | [] => true
  | deleteAppointment _ :: cs' => prompted && deletes_prompted false cs'
  | window_confirm _ :: cs' => deletes_prompted true cs'
  | _ :: cs' => deletes_prompted false cs'
  end.

(** The [onChange] handlers of the four text inputs. *)
Definition is_input_change (e : Event) : bool :=
  match e with
  | TokenInputChange _ | NewDateChange _ | NewStartTimeChange _
  | NewEndTimeChange _ => true
  | _ => false
  end.

(** The interactions whose handler calls a [useState] setter. *)
Definition sets_state (e : Event) : bool :=
  match e with
  | TokenInputChange _ | NewDateChange _ | NewStartTimeChange _
  | NewEndTimeChange _ | ReagendarClick | DialogOpenChange _
  | CancelarClick | ConfirmarReagendamentoClick => true
  | _ => false
  end.

Module Sample2.

(** A receptionist types a token and saves it. *)
Definition type_and_save : list (Env string * Event) :=
  [(Sample.session_of (Some "receptionist") None true,
    TokenInputChange "AUTH-123");
   (Sample.session_of (Some "receptionist") None true, SalvarTokenClick)].

(** Two clicks on the save button in a row. *)
Definition save_twice : list (Env string * Event) :=
  [(Sample.admin_no_slot, SalvarTokenClick);
   (Sample.admin_no_slot, SalvarTokenClick)].

(** Typing in all four inputs. *)
Definition typing : list (Env string * Event) :=
  [(Sample.admin_slot, NewEndTimeChange "09:30");
   (Sample.admin_slot, TokenInputChange "X");
   (Sample.admin_slot, NewDateChange "2030-07-01");
   (Sample.admin_slot, NewStartTimeChange "09:00");
   (Sample.admin_slot, TokenInputChange "XY")].

(** Open on a suggested slot, overwrite all three fields, confirm. *)
Definition open_edit_confirm : list (Env string * Event) :=
  [(Sample.admin_slot, ReagendarClick);
   (Sample.admin_slot, NewDateChange "2030-07-01");
   (Sample.admin_slot, NewStartTimeChange "09:00");
   (Sample.admin_slot, NewEndTimeChange "09:30");
   (Sample.admin_slot, ConfirmarReagendamentoClick)].

(** Open, dismiss, open again, confirm, then a declined and an accepted
    delete. *)
Definition busy : list (Env string * Event) :=
  [(Sample.admin_slot, ReagendarClick);
   (Sample.admin_slot, DialogOpenChange false);
   (Sample.admin_no_slot, ReagendarClick);
   (Sample.admin_no_slot, ConfirmarReagendamentoClick);
   (Sample.session_of (Some "admin") None false, CancelarAgendamentoClick);
   (Sample.admin_no_slot, StatusValueChange "confirmed");
   (Sample.admin_no_slot, CancelarAgendamentoClick)].

(** The second sample appointment, already completed, as the prop. *)
Definition props_permuta : Props := {| appointment := 2%positive |}.

Definition mounted_permuta : World :=
  {| heap := Sample.store;
     hooks := initialHooks Sample.permuta;
     calls := [] |}.

(** A session has ended while the dialog was open. *)
Definition left_open : World :=
  {| heap := Sample.store;
     hooks := {| isReschedulingOpen := true;
                 newDate := "2030-05-20";
                 newStartTime := "14:00";
                 newEndTime := "15:00";
                 insuranceToken := "" |};
     calls := [findNextAvailableSlot "psy-3"] |}.

End Sample2.

(** ** Properties of the pure parts *)

Lemma role_is_true (user : option User.t) (r : string) :
  role_is user r = true <-> exists u, user = Some u /\ User.role u = r.
Proof.
  unfold role_is. destruct user as [u|].
  - rewrite String.eqb_eq. split.
    + intros Hr. exists u. split; [reflexivity | exact Hr].
    + intros [u' [Hu Hr]]. injection Hu as ->. exact Hr.
  - split; [discriminate | intros [u [Hu _]]; discriminate].
Qed.

Lemma canManage_true (user : option User.t) :
  canManage user = true <->
  exists u, user = Some u
    /\ (User.role u = "admin" \/ User.role u = "receptionist"
        \/ User.role u = "psychologist").
Proof.
  unfold canManage, isAdmin, isReceptionist, isPsychologist.
  rewrite !orb_true_iff, !role_is_true. split.
  - intros [[[u [Hu Hr]] | [u [Hu Hr]]] | [u [Hu Hr]]]; exists u; tauto.
  - intros [u [Hu [Hr | [Hr | Hr]]]]; [left; left | left; right | right];
      exists u; tauto.
Qed.

Lemma canEditToken_canManage (user : option User.t) :
  canEditToken user = canManage user.
Proof. reflexivity. Qed.

(** C1. For every payment method, status and session user, the flag
    [shouldShowTokenInput] is true exactly when the payment method is
    insurance, the status is pending or confirmed, and the user's role is
    admin, receptionist or psychologist. *)
Theorem shouldShowTokenInput_iff (user : option User.t) (a : Appointment.t) :
  shouldShowTokenInput user a = true <->
  Appointment.paymentMethod a = "insurance"
  /\ (Appointment.status a = "pending" \/ Appointment.status a = "confirmed")
  /\ exists u, user = Some u
       /\ (User.role u = "admin" \/ User.role u = "receptionist"
           \/ User.role u = "psychologist").
Proof.
  unfold shouldShowTokenInput.
  rewrite !andb_true_iff, orb_true_iff, !String.eqb_eq.
  rewrite canEditToken_canManage, canManage_true. tauto.
Qed.

(** The five outcomes of the badge functions on the sample statuses. *)
Example getStatus_samples :
  map (fun s => (getStatusColor s, getStatusText s))
      ["pending"; "confirmed"; "cancelled"; "completed"; "no-show"]
  = [("text-yellow-700 bg-yellow-100", "Pendente");
     ("text-green-700 bg-green-100", "Confirmado");
     ("text-red-700 bg-red-100", "Cancelado");
     ("text-blue-700 bg-blue-100", "Concluído");
     ("text-gray-700 bg-gray-100", "no-show")].
Proof. reflexivity. Qed.

(** C5, as stated, fails: the label of a pending appointment is the
    Portuguese word, not "Pending". *)
Lemma getStatusText_pending_not_english :
  getStatusText "pending" = "Pendente" /\ getStatusText "pending" <> "Pending".
Proof. split; [reflexivity | discriminate]. Qed.

(** C5, amended. Every status string falls in exactly one of five cases:
    the four known statuses get their fixed colour classes (yellow, green,
    red, blue) and the labels Pendente, Confirmado, Cancelado, Concluído;
    any other string gets the grey classes and is echoed unchanged. *)
Theorem status_badge_mapping (s : string) :
  (s = "pending"
   /\ getStatusColor s = "text-yellow-700 bg-yellow-100"
   /\ getStatusText s = "Pendente")
  \/ (s = "confirmed"
      /\ getStatusColor s = "text-green-700 bg-green-100"
      /\ getStatusText s = "Confirmado")
  \/ (s = "cancelled"
      /\ getStatusColor s = "text-red-700 bg-red-100"
      /\ getStatusText s = "Cancelado")
  \/ (s = "completed"
      /\ getStatusColor s = "text-blue-700 bg-blue-100"
      /\ getStatusText s = "Concluído")
  \/ (s <> "pending" /\ s <> "confirmed" /\ s <> "cancelled"
      /\ s <> "completed"
      /\ getStatusColor s = "text-gray-700 bg-gray-100"
      /\ getStatusText s = s).
Proof.
  unfold getStatusColor, getStatusText.
  destruct (String.eqb_spec s "confirmed") as [-> | Hconf];
    [right; left; repeat split |].
  destruct (String.eqb_spec s "pending") as [-> | Hpend];
    [left; repeat split |].
  destruct (String.eqb_spec s "cancelled") as [-> | Hcanc];
    [right; right; left; repeat split |].
  destruct (String.eqb_spec s "completed") as [-> | Hcomp];
    [right; right; right; left; repeat split |].
  right; right; right; right. repeat split; assumption.
Qed.

Lemma paymentMethodLabel_private (a : Appointment.t) :
  Appointment.paymentMethod a = "private" ->
  paymentMethodLabel a = "Particular".
Proof. intros Hpay. unfold paymentMethodLabel. rewrite Hpay. reflexivity. Qed.

(** C10. Whatever the payment method is, as long as it is not the string
    "private" the payment line of the panel reads as the insurance form,
    with the insurance type in brackets: the only test is equality with
    "private". *)
Theorem paymentMethodLabel_not_private {Date : Type}
    (new_Date : string -> Date) (format : Date -> string -> string)
    (toFixed : float -> nat -> string) (a : Appointment.t)
    (Hpay : Appointment.paymentMethod a <> "private") :
  metodoDePagamento (details new_Date format toFixed a)
  = "Convênio (" ++ Appointment.insuranceType a ++ ")".
Proof.
  cbn [details metodoDePagamento]. unfold paymentMethodLabel.
  destruct (String.eqb_spec (Appointment.paymentMethod a) "private");
    [contradiction | reflexivity].
Qed.

Lemma paymentMethodLabel_voucher :
  Appointment.paymentMethod Sample.permuta <> "private"
  /\ Appointment.paymentMethod Sample.permuta <> "insurance"
  /\ metodoDePagamento
       (details Sample.new_Date Sample.format Sample.toFixed Sample.permuta)
     = "Convênio (Bradesco)".
Proof.
  split; [discriminate |]. split; [discriminate |].
  exact (paymentMethodLabel_not_private Sample.new_Date Sample.format
           Sample.toFixed Sample.permuta ltac:(discriminate)).
Defined.

(** ** Properties of the handlers *)

Lemma deref_Some (w : World) (l : loc) (a : Appointment.t) :
  heap w !! l = Some a -> deref l w = Some (a, w).
Proof. intros Hl. unfold deref. rewrite Hl. reflexivity. Qed.

Lemma bind_Some {A B} (m : M A) (k : A -> M B) (w w' : World) (x : A) :
  m w = Some (x, w') -> (m ≫= k) w = k x w'.
Proof. intros Hm. unfold mbind, M_bind. rewrite Hm. reflexivity. Qed.

Lemma alloc_fresh (w : World) :
  heap w !! fresh (dom (heap w)) = None.
Proof. apply not_elem_of_dom, is_fresh. Qed.

(** Run a handler symbolically: unfold the monad, resolve each read of
    the appointment object with [H], and project the resulting world. *)
Ltac run_handler H :=
  cbv beta iota delta
    [dispatch handleSaveToken handleStatusChange handleOpenReschedule
     handleDelete handleReschedule ask_findNextAvailableSlot
     ask_window_confirm mbind M_bind mret M_ret call getHooks setHooks
     alloc deref setIsReschedulingOpen setNewDate setNewStartTime
     setNewEndTime setInsuranceToken];
  repeat (progress cbn [heap hooks calls isReschedulingOpen newDate
                        newStartTime newEndTime insuranceToken]
          || rewrite H).

(** C6. Confirming the dialog calls the reschedule operation once, with
    the appointment's identifier and the three draft values exactly as
    they stand (nothing compares start and end), and leaves the dialog
    closed. *)
Theorem confirm_reschedule {Date : Type} (format : Date -> string -> string)
    (props : Props) (env : Env Date) (w : World) (a : Appointment.t)
    (Happt : heap w !! appointment props = Some a) :
  exists w',
    dispatch format props env ConfirmarReagendamentoClick w = Some (tt, w')
    /\ calls w' =
         (calls w ++
          [rescheduleAppointment (Appointment.id a) (newDate (hooks w))
             (newStartTime (hooks w)) (newEndTime (hooks w))])%list
    /\ isReschedulingOpen (hooks w') = false
    /\ heap w' = heap w.
Proof.
  run_handler Happt.
  eexists. split; [reflexivity |]. cbn. auto.
Qed.

Lemma dispatch_frame {Date : Type} (format : Date -> string -> string)
    (props : Props) (env : Env Date) (e : Event) (w : World)
    (a : Appointment.t) :
  heap w !! appointment props = Some a ->
  exists w',
    dispatch format props env e w = Some (tt, w')
    /\ heap w ⊆ heap w'
    /\ exists new, calls w' = (calls w ++ new)%list.
Proof.
  intros Happt.
  destruct e; run_handler Happt.
  all: try (eexists; split; [reflexivity |]; cbn; split;
            [reflexivity | first [ exists []; symmetry; apply app_nil_r
                                 | eexists; reflexivity ]]).
  - eexists. split; [reflexivity |]. cbn. split.
    + apply insert_subseteq, alloc_fresh.
    + rewrite <- app_assoc. eexists. reflexivity.
  - destruct (nextAvailableSlot env (Appointment.psychologistId a));
      run_handler Happt; eexists; (split; [reflexivity |]); cbn;
      (split; [reflexivity | eexists; reflexivity]).
  - destruct (confirmAnswer env _); run_handler Happt;
      eexists; (split; [reflexivity |]); cbn;
      (split; [reflexivity |]).
    + rewrite <- !app_assoc. eexists. reflexivity.
    + eexists. reflexivity.
Qed.

Lemma confirm_reschedule_inverted_times :
  heap Sample.inverted !! appointment Sample.props = Some Sample.consulta
  /\ calls_after (dispatch Sample.format Sample.props Sample.admin_no_slot
                   ConfirmarReagendamentoClick Sample.inverted)
     = Some [findNextAvailableSlot "psy-3";
             rescheduleAppointment "apt-17" "2030-05-27" "15:00" "14:00"]
  /\ hooks_after (dispatch Sample.format Sample.props Sample.admin_no_slot
                   ConfirmarReagendamentoClick Sample.inverted)
     = Some {| isReschedulingOpen := false;
               newDate := "2030-05-27";
               newStartTime := "15:00";
               newEndTime := "14:00";
               insuranceToken := "AUTH-123" |}.
Proof.
  split; [reflexivity |].
  destruct (confirm_reschedule Sample.format Sample.props
              Sample.admin_no_slot Sample.inverted Sample.consulta
              eq_refl) as (w' & Hrun & Hcalls & Hopen & Hheap).
  rewrite Hrun. cbn [calls_after hooks_after]. rewrite Hcalls.
  split; [reflexivity |].
  vm_compute in Hrun. injection Hrun as <-. reflexivity.
Defined.

(** C3, as stated, fails: after two edits and Cancel the draft still
    holds the edited date and start time, neither the values it had when
    the dialog was opened nor the appointment's own. *)
Lemma cancel_keeps_edited_draft :
  exists w,
    session Sample.new_Date Sample.format Sample.toFixed Sample.props
      Sample.mounted Sample.edit_then_cancel w
    /\ hooks w = {| isReschedulingOpen := false;
                    newDate := "2031-01-01";
                    newStartTime := "16:00";
                    newEndTime := "15:00";
                    insuranceToken := "" |}
    /\ newDate (hooks w) <> newDate (hooks Sample.mounted)
    /\ newStartTime (hooks w) <> newStartTime (hooks Sample.mounted)
    /\ newDate (hooks w) <> Appointment.date Sample.consulta
    /\ newStartTime (hooks w) <> Appointment.startTime Sample.consulta.
Proof.
  eexists. split.
  - unfold Sample.edit_then_cancel.
    repeat (eapply session_cons;
            [vm_compute; reflexivity | reflexivity
            | vm_compute; reflexivity |]).
    apply session_nil.
  - cbn. repeat split; discriminate.
Qed.

(** C3, amended. Cancel makes no call and changes nothing but the
    dialog-open flag, which becomes false: the three draft fields (and
    the token draft, and the store) are exactly as they were. *)
Theorem cancel_reschedule {Date : Type} (format : Date -> string -> string)
    (props : Props) (env : Env Date) (w : World) :
  exists w',
    dispatch format props env CancelarClick w = Some (tt, w')
    /\ calls w' = calls w
    /\ heap w' = heap w
    /\ isReschedulingOpen (hooks w') = false
    /\ newDate (hooks w') = newDate (hooks w)
    /\ newStartTime (hooks w') = newStartTime (hooks w)
    /\ newEndTime (hooks w') = newEndTime (hooks w)
    /\ insuranceToken (hooks w') = insuranceToken (hooks w).
Proof.
  eexists. split; [reflexivity |]. cbn. repeat split.
Qed.

(** C2, as stated, fails on a re-open: after an edit and Cancel, opening
    the dialog again while no slot is available shows the edited draft,
    not the appointment's own date and start time. *)
Lemma reopen_without_slot_keeps_edits :
  nextAvailableSlot Sample.admin_no_slot
    (Appointment.psychologistId Sample.consulta) = None
  /\ exists w,
       session Sample.new_Date Sample.format Sample.toFixed Sample.props
         Sample.mounted Sample.edit_cancel_reopen w
       /\ heap w !! appointment Sample.props = Some Sample.consulta
       /\ hooks w = {| isReschedulingOpen := true;
                       newDate := "2031-01-01";
                       newStartTime := "16:00";
                       newEndTime := "15:00";
                       insuranceToken := "" |}
       /\ newDate (hooks w) <> Appointment.date Sample.consulta
       /\ newStartTime (hooks w) <> Appointment.startTime Sample.consulta.
Proof.
  split; [reflexivity |].
  eexists. split.
  - unfold Sample.edit_cancel_reopen, Sample.edit_then_cancel.
    cbn [app].
    repeat (eapply session_cons;
            [vm_compute; reflexivity | reflexivity
            | vm_compute; reflexivity |]).
    apply session_nil.
  - cbn. repeat split; discriminate.
Qed.

(** C2, amended. Opening the dialog asks the collaborator for the next
    slot of the appointment's psychologist and then shows the dialog.
    If a slot comes back, the three draft fields become that slot's date
    (formatted as yyyy-MM-dd), start time and end time.  If none comes
    back, the three draft fields are left exactly as they were; on a
    component whose hook state is still the initial one these are the
    appointment's own date, start time and end time. *)
Theorem open_reschedule_draft {Date : Type}
    (format : Date -> string -> string)
    (props : Props) (env : Env Date) (w : World) (a : Appointment.t)
    (Happt : heap w !! appointment props = Some a) :
  exists w',
    dispatch format props env ReagendarClick w = Some (tt, w')
    /\ calls w' =
         (calls w ++
          [findNextAvailableSlot (Appointment.psychologistId a)])%list
    /\ isReschedulingOpen (hooks w') = true
    /\ match nextAvailableSlot env (Appointment.psychologistId a) with
       | Some slot =>
           newDate (hooks w') = format (Slot.date slot) "yyyy-MM-dd"
           /\ newStartTime (hooks w') = Slot.startTime slot
           /\ newEndTime (hooks w') = Slot.endTime slot
       | None =>
           newDate (hooks w') = newDate (hooks w)
           /\ newStartTime (hooks w') = newStartTime (hooks w)
           /\ newEndTime (hooks w') = newEndTime (hooks w)
           /\ (hooks w = initialHooks a ->
               newDate (hooks w') = Appointment.date a
               /\ newStartTime (hooks w') = Appointment.startTime a
               /\ newEndTime (hooks w') = Appointment.endTime a)
       end.
Proof.
  run_handler Happt.
  destruct (nextAvailableSlot env (Appointment.psychologistId a)) as [slot|];
    run_handler Happt; eexists; (split; [reflexivity |]); cbn.
  - repeat split.
  - do 5 (split; [reflexivity |]). intros ->. repeat split.
Qed.

Lemma open_reschedule_draft_samples :
  (heap Sample.inverted !! appointment Sample.props = Some Sample.consulta
   /\ hooks_after (dispatch Sample.format Sample.props Sample.admin_slot
                     ReagendarClick Sample.inverted)
      = Some {| isReschedulingOpen := true;
                newDate := "2030-06-03";
                newStartTime := "10:00";
                newEndTime := "11:00";
                insuranceToken := "AUTH-123" |})
  /\ (heap Sample.mounted !! appointment Sample.props = Some Sample.consulta
      /\ hooks_after (dispatch Sample.format Sample.props
                        Sample.admin_no_slot ReagendarClick Sample.mounted)
         = Some {| isReschedulingOpen := true;
                   newDate := "2030-05-20";
                   newStartTime := "14:00";
                   newEndTime := "15:00";
                   insuranceToken := "" |}).
Proof.
  split; (split; [reflexivity |]).
  - destruct (open_reschedule_draft Sample.format Sample.props
                Sample.admin_slot Sample.inverted Sample.consulta eq_refl)
      as (w' & Hrun & _ & Hopen & Hdate & Hstart & Hend).
    rewrite Hrun. cbn [hooks_after].
    vm_compute in Hrun. injection Hrun as <-. reflexivity.
  - destruct (open_reschedule_draft Sample.format Sample.props
                Sample.admin_no_slot Sample.mounted Sample.consulta eq_refl)
      as (w' & Hrun & _ & Hopen & Hdate & Hstart & Hend & Hinit).
    rewrite Hrun. cbn [hooks_after].
    vm_compute in Hrun. injection Hrun as <-. reflexivity.
Defined.

(** C4. Saving the token hands the update operation a record that
    agrees with the current appointment on every field but the token,
    which is the token draft; the record is a new object; and the
    confirmation toast is shown once, after the update call. *)
Theorem save_token {Date : Type} (format : Date -> string -> string)
    (props : Props) (env : Env Date) (w : World) (a : Appointment.t)
    (Happt : heap w !! appointment props = Some a) :
  exists (l : loc) (a' : Appointment.t) (w' : World),
    dispatch format props env SalvarTokenClick w = Some (tt, w')
    /\ calls w' =
         (calls w ++
          [updateAppointment l;
           toast "Token salvo"
             "O token do convênio foi salvo com sucesso."])%list
    /\ length (List.filter is_toast (calls w'))
       = S (length (List.filter is_toast (calls w)))
    /\ heap w' !! l = Some a'
    /\ heap w !! l = None
    /\ Appointment.insuranceToken a' = Some (insuranceToken (hooks w))
    /\ Appointment.id a' = Appointment.id a
    /\ Appointment.patient a' = Appointment.patient a
    /\ Appointment.psychologistId a' = Appointment.psychologistId a
    /\ Appointment.psychologistName a' = Appointment.psychologistName a
    /\ Appointment.roomName a' = Appointment.roomName a
    /\ Appointment.date a' = Appointment.date a
    /\ Appointment.startTime a' = Appointment.startTime a
    /\ Appointment.endTime a' = Appointment.endTime a
    /\ Appointment.paymentMethod a' = Appointment.paymentMethod a
    /\ Appointment.insuranceType a' = Appointment.insuranceType a
    /\ Appointment.value a' = Appointment.value a
    /\ Appointment.status a' = Appointment.status a
    /\ heap w' !! appointment props = Some a
    /\ hooks w' = hooks w.
Proof.
  assert (Hne : fresh (dom (heap w)) <> appointment props).
  { intros Heq. pose proof (alloc_fresh w) as Hfresh.
    rewrite Heq, Happt in Hfresh. discriminate. }
  run_handler Happt.
  exists (fresh (dom (heap w))),
         (Appointment.spread_insuranceToken a (insuranceToken (hooks w))).
  eexists. split; [reflexivity |]. cbn [heap hooks calls].
  split; [rewrite <- app_assoc; reflexivity |].
  split.
  { rewrite <- !app_assoc, !List.filter_app, !length_app. cbn. lia. }
  split; [apply lookup_insert_eq |].
  split; [apply alloc_fresh |].
  do 13 (split; [reflexivity |]).
  split; [| reflexivity].
  rewrite lookup_insert_ne by exact Hne. exact Happt.
Qed.

Lemma save_token_receptionist :
  heap Sample.inverted !! appointment Sample.props = Some Sample.consulta
  /\ calls_after (dispatch Sample.format Sample.props
                    (Sample.session_of (Some "receptionist") None true)
                    SalvarTokenClick Sample.inverted)
     = Some [findNextAvailableSlot "psy-3";
             updateAppointment 6%positive;
             toast "Token salvo"
               "O token do convênio foi salvo com sucesso."]
  /\ exists w',
       dispatch Sample.format Sample.props
         (Sample.session_of (Some "receptionist") None true)
         SalvarTokenClick Sample.inverted = Some (tt, w')
       /\ (Appointment.insuranceToken <$> heap w' !! 6%positive)
          = Some (Some "AUTH-123")
       /\ heap w' !! appointment Sample.props = Some Sample.consulta.
Proof.
  split; [reflexivity |].
  destruct (save_token Sample.format Sample.props
              (Sample.session_of (Some "receptionist") None true)
              Sample.inverted Sample.consulta eq_refl)
    as (l & a' & w' & Hrun & Hcalls & _ & Hnew & _ & Htok & Hrest).
  split.
  - rewrite Hrun. cbn [calls_after]. rewrite Hcalls.
    vm_compute in Hrun. injection Hrun as <-.
    vm_compute in Hcalls. injection Hcalls as <-. reflexivity.
  - exists w'. split; [exact Hrun |].
    vm_compute in Hrun. injection Hrun as <-.
    split; reflexivity.
Defined.

Lemma unprivileged_canManage (user : option User.t) :
  unprivileged user <-> canManage user = false.
Proof.
  rewrite <- not_true_iff_false, canManage_true. unfold unprivileged. split.
  - intros Hun [u [Hu Hr]]. specialize (Hun u Hu). tauto.
  - intros Hno u Hu. repeat split; intros Hr; apply Hno; exists u; tauto.
Qed.

Lemma shouldShowTokenInput_canManage (user : option User.t)
    (a : Appointment.t) :
  canManage user = false -> shouldShowTokenInput user a = false.
Proof.
  intros Hcan. unfold shouldShowTokenInput.
  rewrite canEditToken_canManage, Hcan. apply andb_false_r.
Qed.

Lemma In_view_StatusSelect {Date : Type} (new_Date : string -> Date)
    (format : Date -> string -> string) (toFixed : float -> nat -> string)
    (env : Env Date) (a : Appointment.t) (h : Hooks)
    (d : string) (items : list (string * string)) :
  In (StatusSelect d items) (view new_Date format toFixed env a h) ->
  canManage (user env) = true
  /\ d = Appointment.status a /\ items = statusItems.
Proof.
  unfold view.
  destruct (shouldShowTokenInput (user env) a), (canManage (user env));
    cbn; intros Hin;
    repeat match goal with
           | H : _ \/ _ |- _ => destruct H as [H | H]
           | H : False |- _ => destruct H
           | H : _ = StatusSelect _ _ |- _ => inversion H; clear H
           end;
    subst; auto.
Qed.

(** C8. Whenever the status selector is part of the view, the user can
    manage the appointment, the selector's default is the appointment's
    current status, its choices are exactly pending, confirmed and
    cancelled (so completed is not among them), and choosing a status
    calls the update-status operation once with the appointment's
    identifier and that status, leaving the hook state and the store as
    they were. *)
Theorem status_selector {Date : Type} (new_Date : string -> Date)
    (format : Date -> string -> string) (toFixed : float -> nat -> string)
    (props : Props) (env : Env Date) (w : World) (a : Appointment.t)
    (v : list Widget) (d : string) (items : list (string * string))
    (Happt : heap w !! appointment props = Some a)
    (Hview : render new_Date format toFixed props env w = Some v)
    (Hshown : In (StatusSelect d items) v) :
  canManage (user env) = true
  /\ d = Appointment.status a
  /\ map fst items = ["pending"; "confirmed"; "cancelled"]
  /\ ~ In "completed" (map fst items)
  /\ (forall s, offers v (StatusValueChange s) = true <->
                s = "pending" \/ s = "confirmed" \/ s = "cancelled")
  /\ forall s, exists w',
       dispatch format props env (StatusValueChange s) w = Some (tt, w')
       /\ calls w' =
            (calls w ++ [updateAppointmentStatus (Appointment.id a) s])%list
       /\ hooks w' = hooks w
       /\ heap w' = heap w.
Proof.
  unfold render in Hview. rewrite Happt in Hview. injection Hview as <-.
  destruct (In_view_StatusSelect _ _ _ _ _ _ _ _ Hshown)
    as (Hcan & -> & ->).
  split; [exact Hcan |]. split; [reflexivity |].
  split; [reflexivity |].
  split; [cbn; intros [H | [H | [H | []]]]; discriminate |].
  split.
  - intros s. unfold view, offers. rewrite Hcan.
    rewrite !existsb_app.
    destruct (shouldShowTokenInput (user env) a),
      (isReschedulingOpen (hooks w)); cbn;
      rewrite ?orb_false_r, !orb_true_iff, !String.eqb_eq; tauto.
  - intros s. run_handler Happt. eexists. split; [reflexivity |].
    cbn. auto.
Qed.

Lemma status_selector_admin :
  render Sample.new_Date Sample.format Sample.toFixed Sample.props
    Sample.admin_no_slot Sample.mounted
  = Some (view Sample.new_Date Sample.format Sample.toFixed
            Sample.admin_no_slot Sample.consulta (hooks Sample.mounted))
  /\ In (StatusSelect "pending" statusItems)
        (view Sample.new_Date Sample.format Sample.toFixed
           Sample.admin_no_slot Sample.consulta (hooks Sample.mounted))
  /\ calls_after (dispatch Sample.format Sample.props Sample.admin_no_slot
                    (StatusValueChange "confirmed") Sample.mounted)
     = Some [updateAppointmentStatus "apt-17" "confirmed"].
Proof.
  assert (Hshown : In (StatusSelect "pending" statusItems)
            (view Sample.new_Date Sample.format Sample.toFixed
               Sample.admin_no_slot Sample.consulta (hooks Sample.mounted))).
  { cbn. right. right. left. reflexivity. }
  split; [reflexivity |]. split; [exact Hshown |].
  destruct (status_selector Sample.new_Date Sample.format Sample.toFixed
              Sample.props Sample.admin_no_slot Sample.mounted
              Sample.consulta _ "pending" statusItems
              eq_refl eq_refl Hshown)
    as (_ & _ & _ & _ & _ & Hselect).
  destruct (Hselect "confirmed") as (w' & Hrun & Hcalls & _).
  rewrite Hrun. cbn [calls_after]. rewrite Hcalls. reflexivity.
Defined.

(** C9. Through any sequence of interactions, under any environments,
    the handlers always run to completion, the appointment object the
    component was handed is still the same record afterwards, every
    object of the store is untouched (the store only grows, by the fresh
    copies made for the update operation), and what the handlers did is
    an extension of the trace of calls on the collaborators. *)
Theorem handlers_never_mutate {Date : Type}
    (format : Date -> string -> string) (props : Props)
    (es : list (Env Date * Event)) (w : World) (a : Appointment.t)
    (Happt : heap w !! appointment props = Some a) :
  exists w',
    run format props es w = Some (tt, w')
    /\ heap w' !! appointment props = Some a
    /\ heap w ⊆ heap w'
    /\ (forall l o, heap w !! l = Some o -> heap w' !! l = Some o)
    /\ exists new, calls w' = (calls w ++ new)%list.
Proof.
  revert w Happt. induction es as [| [env e] es IH]; intros w Happt.
  - exists w. split; [reflexivity |]. split; [exact Happt |].
    split; [reflexivity |]. split; [auto |].
    exists []. symmetry. apply app_nil_r.
  - destruct (dispatch_frame format props env e w a Happt)
      as (w1 & Hstep & Hsub1 & new1 & Hcalls1).
    assert (Happt1 : heap w1 !! appointment props = Some a)
      by (eapply lookup_weaken; eassumption).
    destruct (IH w1 Happt1) as (w2 & Hrun & Happt2 & Hsub2 & _ & new2 & Hcalls2).
    exists w2. cbn [run]. rewrite (bind_Some _ _ _ _ _ Hstep), Hrun.
    split; [reflexivity |]. split; [exact Happt2 |].
    assert (Hsub : heap w ⊆ heap w2) by (etransitivity; eassumption).
    split; [exact Hsub |].
    split; [intros l o Hl; eapply lookup_weaken; eassumption |].
    exists (new1 ++ new2)%list. rewrite Hcalls2, Hcalls1, app_assoc.
    reflexivity.
Qed.

Lemma handlers_never_mutate_sample :
  heap Sample.mounted !! appointment Sample.props = Some Sample.consulta
  /\ exists w',
       run Sample.format Sample.props
         ((Sample.admin_slot, SalvarTokenClick)
          :: (Sample.admin_slot, StatusValueChange "cancelled")
          :: (Sample.admin_slot, CancelarAgendamentoClick)
          :: Sample.edit_cancel_reopen
          ++ [(Sample.admin_slot, ConfirmarReagendamentoClick)])%list
         Sample.mounted = Some (tt, w')
       /\ heap w' !! appointment Sample.props = Some Sample.consulta
       /\ heap w' !! 2%positive = Some Sample.permuta.
Proof.
  split; [reflexivity |].
  destruct (handlers_never_mutate Sample.format Sample.props
              ((Sample.admin_slot, SalvarTokenClick)
               :: (Sample.admin_slot, StatusValueChange "cancelled")
               :: (Sample.admin_slot, CancelarAgendamentoClick)
               :: Sample.edit_cancel_reopen
               ++ [(Sample.admin_slot, ConfirmarReagendamentoClick)])%list
              Sample.mounted Sample.consulta eq_refl)
    as (w' & Hrun & Happt & _ & Hkeep & _).
  exists w'. split; [exact Hrun |]. split; [exact Happt |].
  apply Hkeep. reflexivity.
Defined.







(** ** Further properties of the handlers *)

(** X1. The delete button first prompts with [window.confirm].  If the
    user declines, nothing else is called; if the user accepts, the
    delete operation is called with the appointment's identifier and
    then the panel's close callback, in that order.  Hook state and
    store are untouched either way. *)
Theorem delete_behind_confirm {Date : Type}
    (format : Date -> string -> string)
    (props : Props) (env : Env Date) (w : World) (a : Appointment.t)
    (Happt : heap w !! appointment props = Some a) :
  exists w',
    dispatch format props env CancelarAgendamentoClick w = Some (tt, w')
    /\ calls w' =
         (calls w ++
          window_confirm "Tem certeza que deseja cancelar este agendamento?"
          :: (if confirmAnswer env
                   "Tem certeza que deseja cancelar este agendamento?"
              then [deleteAppointment (Appointment.id a); onClose]
              else []))%list
    /\ hooks w' = hooks w
    /\ heap w' = heap w.
Proof.
  run_handler Happt.
  destruct (confirmAnswer env _); run_handler Happt;
    eexists; (split; [reflexivity |]); cbn [heap hooks calls];
    rewrite <- ?app_assoc; auto.
Qed.

Lemma delete_behind_confirm_declined :
  heap Sample.mounted !! appointment Sample.props = Some Sample.consulta
  /\ calls_after
       (dispatch Sample.format Sample.props
          (Sample.session_of (Some "admin") None false)
          CancelarAgendamentoClick Sample.mounted)
     = Some [window_confirm
               "Tem certeza que deseja cancelar este agendamento?"]
  /\ calls_after
       (dispatch Sample.format Sample.props Sample.admin_no_slot
          CancelarAgendamentoClick Sample.mounted)
     = Some [window_confirm
               "Tem certeza que deseja cancelar este agendamento?";
             deleteAppointment "apt-17"; onClose].
Proof.
  split; [reflexivity |]. split.
  - destruct (delete_behind_confirm Sample.format Sample.props
                (Sample.session_of (Some "admin") None false)
                Sample.mounted Sample.consulta eq_refl)
      as (w' & Hrun & Hcalls & _).
    rewrite Hrun. cbn [calls_after]. rewrite Hcalls. reflexivity.
  - destruct (delete_behind_confirm Sample.format Sample.props
                Sample.admin_no_slot Sample.mounted Sample.consulta eq_refl)
      as (w' & Hrun & Hcalls & _).
    rewrite Hrun. cbn [calls_after]. rewrite Hcalls. reflexivity.
Defined.

Lemma deletes_prompted_weaken (b : bool) (cs : list Call) :
  deletes_prompted false cs = true -> deletes_prompted b cs = true.
Proof.
  destruct cs as [| c cs]; [reflexivity |].
  destruct c; cbn; try (intros H; exact H). discriminate.
Qed.

Lemma deletes_prompted_app (b : bool) (xs ys : list Call) :
  deletes_prompted b xs = true ->
  deletes_prompted false ys = true ->
  deletes_prompted b (xs ++ ys) = true.
Proof.
  revert b. induction xs as [| c xs IH]; intros b Hxs Hys.
  - apply deletes_prompted_weaken. exact Hys.
  - destruct c; cbn in Hxs |- *; try (apply IH; assumption).
    apply andb_true_iff in Hxs as [-> Hxs]. cbn. apply IH; assumption.
Qed.

(** What one interaction appends to the trace keeps deletes prompted. *)
Lemma dispatch_deletes_prompted {Date : Type}
    (format : Date -> string -> string)
    (props : Props) (env : Env Date) (e : Event) (w : World)
    (a : Appointment.t) :
  heap w !! appointment props = Some a ->
  exists w' new,
    dispatch format props env e w = Some (tt, w')
    /\ heap w' !! appointment props = Some a
    /\ calls w' = (calls w ++ new)%list
    /\ deletes_prompted false new = true.
Proof.
  intros Happt.
  destruct (dispatch_frame format props env e w a Happt)
    as (w' & Hstep & Hsub & _).
  exists w'.
  assert (Happt' : heap w' !! appointment props = Some a)
    by (eapply lookup_weaken; eassumption).
  destruct e; revert Hstep; run_handler Happt.
  all: try (destruct (nextAvailableSlot env _); run_handler Happt).
  all: try (destruct (confirmAnswer env _); run_handler Happt).
  all: intros Hstep; injection Hstep as <-; cbn [heap hooks calls] in *.
  all: rewrite <- ?app_assoc.
  all: first [ solve [exists []; rewrite app_nil_r; auto]
             | eexists; split; [reflexivity |];
               split; [exact Happt' |]; split; reflexivity ].
Qed.

(** X2. In the trace of any sequence of interactions, every call of the
    delete operation comes directly after a [window.confirm] prompt: no
    handler deletes without asking. *)
Theorem run_deletes_prompted {Date : Type}
    (format : Date -> string -> string) (props : Props)
    (es : list (Env Date * Event)) (w : World) (a : Appointment.t)
    (Happt : heap w !! appointment props = Some a)
    (Htrace : deletes_prompted false (calls w) = true) :
  exists w',
    run format props es w = Some (tt, w')
    /\ deletes_prompted false (calls w') = true.
Proof.
  revert w Happt Htrace.
  induction es as [| [env e] es IH]; intros w Happt Htrace.
  - exists w. split; [reflexivity | exact Htrace].
  - destruct (dispatch_deletes_prompted format props env e w a Happt)
      as (w1 & new & Hstep & Happt1 & Hcalls & Hnew).
    destruct (IH w1 Happt1) as (w2 & Hrun & Hok).
    { rewrite Hcalls. apply deletes_prompted_app; assumption. }
    exists w2. cbn [run]. rewrite (bind_Some _ _ _ _ _ Hstep).
    split; assumption.
Qed.

Lemma run_deletes_prompted_busy :
  heap Sample.mounted !! appointment Sample.props = Some Sample.consulta
  /\ deletes_prompted false (calls Sample.mounted) = true
  /\ calls_after (run Sample.format Sample.props Sample2.busy Sample.mounted)
     = Some [findNextAvailableSlot "psy-3";
             findNextAvailableSlot "psy-3";
             rescheduleAppointment "apt-17" "2030-06-03" "10:00" "11:00";
             window_confirm
               "Tem certeza que deseja cancelar este agendamento?";
             updateAppointmentStatus "apt-17" "confirmed";
             window_confirm
               "Tem certeza que deseja cancelar este agendamento?";
             deleteAppointment "apt-17"; onClose].
Proof.
  split; [reflexivity |]. split; [reflexivity |].
  destruct (run_deletes_prompted Sample.format Sample.props Sample2.busy
              Sample.mounted Sample.consulta eq_refl eq_refl)
    as (w' & Hrun & _).
  rewrite Hrun. vm_compute in Hrun. injection Hrun as <-. reflexivity.
Defined.

(** X3. Typing in the token field only changes the token draft: nothing
    is called and the store is as before.  A save after it hands the
    update operation a new copy of the appointment whose token is the
    typed text, and leaves the typed text in the field. *)
Theorem type_then_save {Date : Type} (format : Date -> string -> string)
    (props : Props) (env1 env2 : Env Date) (w : World) (a : Appointment.t)
    (typed : string)
    (Happt : heap w !! appointment props = Some a) :
  exists (w1 w2 : World) (l : loc),
    dispatch format props env1 (TokenInputChange typed) w = Some (tt, w1)
    /\ calls w1 = calls w
    /\ heap w1 = heap w
    /\ dispatch format props env2 SalvarTokenClick w1 = Some (tt, w2)
    /\ calls w2 =
         (calls w ++
          [updateAppointment l;
           toast "Token salvo"
             "O token do convênio foi salvo com sucesso."])%list
    /\ heap w2 !! l = Some (Appointment.spread_insuranceToken a typed)
    /\ Appointment.insuranceToken (Appointment.spread_insuranceToken a typed)
       = Some typed
    /\ heap w !! l = None
    /\ heap w2 !! appointment props = Some a
    /\ insuranceToken (hooks w2) = typed.
Proof.
  eexists. eexists. exists (fresh (dom (heap w))).
  split; [reflexivity |]. cbn [heap hooks calls].
  split; [reflexivity |]. split; [reflexivity |].
  split; [run_handler Happt; reflexivity |]. cbn [heap hooks calls].
  split; [rewrite <- app_assoc; reflexivity |].
  split; [apply lookup_insert_eq |].
  split; [reflexivity |].
  split; [apply alloc_fresh |].
  split; [| reflexivity].
  rewrite lookup_insert_ne; [exact Happt |].
  intros Heq. pose proof (alloc_fresh w) as Hfresh.
  rewrite Heq, Happt in Hfresh. discriminate.
Qed.

Lemma type_then_save_receptionist :
  heap Sample.mounted !! appointment Sample.props = Some Sample.consulta
  /\ exists w',
       run Sample.format Sample.props Sample2.type_and_save Sample.mounted
       = Some (tt, w')
       /\ calls w' = [updateAppointment 6%positive;
                      toast "Token salvo"
                        "O token do convênio foi salvo com sucesso."]
       /\ (Appointment.insuranceToken <$> heap w' !! 6%positive)
          = Some (Some "AUTH-123")
       /\ (Appointment.insuranceToken <$> heap w' !! 5%positive)
          = Some None.
Proof.
  split; [reflexivity |].
  destruct (type_then_save Sample.format Sample.props
              (Sample.session_of (Some "receptionist") None true)
              (Sample.session_of (Some "receptionist") None true)
              Sample.mounted Sample.consulta "AUTH-123" eq_refl)
    as (w1 & w2 & l & Htype & _ & _ & Hsave & _).
  exists w2. split.
  - unfold Sample2.type_and_save. cbn [run].
    rewrite (bind_Some _ _ _ _ _ Htype), (bind_Some _ _ _ _ _ Hsave).
    reflexivity.
  - vm_compute in Htype. injection Htype as <-.
    vm_compute in Hsave. injection Hsave as <-.
    repeat split.
Defined.

(** X4. Saving straight after the first render, without typing: when
    the appointment has a token, the record sent equals the appointment
    (the draft round-trips the token); when it has none, the record sent
    carries the empty string as its token and so differs from the
    appointment. *)
Theorem save_untouched_draft {Date : Type}
    (format : Date -> string -> string)
    (props : Props) (env : Env Date) (store : gmap loc Appointment.t)
    (w0 : World) (a : Appointment.t)
    (Hmount : mount props store = Some w0)
    (Hstore : store !! appointment props = Some a) :
  exists (l : loc) (a' : Appointment.t) (w' : World),
    dispatch format props env SalvarTokenClick w0 = Some (tt, w')
    /\ calls w' =
         [updateAppointment l;
          toast "Token salvo" "O token do convênio foi salvo com sucesso."]
    /\ heap w' !! l = Some a'
    /\ (forall t, Appointment.insuranceToken a = Some t -> a' = a)
    /\ (Appointment.insuranceToken a = None ->
        Appointment.insuranceToken a' = Some "" /\ a' <> a).
Proof.
  unfold mount in Hmount. rewrite Hstore in Hmount. injection Hmount as <-.
  exists (fresh (dom store)),
         (Appointment.spread_insuranceToken a
            (token_or_empty (Appointment.insuranceToken a))).
  eexists. split; [run_handler Hstore; reflexivity |].
  cbn [heap hooks calls]. split; [reflexivity |].
  split; [apply lookup_insert_eq |].
  split.
  - intros t Ht. destruct a as [i p pi pn r d s e pm it tok v st].
    cbn in Ht. subst tok. unfold Appointment.spread_insuranceToken. cbn.
    destruct (String.eqb_spec t ""); [subst t |]; reflexivity.
  - intros Hnone. rewrite Hnone. cbn. split; [reflexivity |].
    intros Heq. apply (f_equal Appointment.insuranceToken) in Heq.
    cbn in Heq. rewrite Hnone in Heq. discriminate.
Qed.

Lemma save_untouched_draft_samples :
  (mount Sample.props Sample.store = Some Sample.mounted
   /\ Sample.store !! appointment Sample.props = Some Sample.consulta
   /\ exists w',
        dispatch Sample.format Sample.props Sample.admin_no_slot
          SalvarTokenClick Sample.mounted = Some (tt, w')
        /\ (Appointment.insuranceToken <$> heap w' !! 6%positive)
           = Some (Some ""))
  /\ (mount Sample2.props_permuta Sample.store = Some Sample2.mounted_permuta
      /\ Sample.store !! appointment Sample2.props_permuta
         = Some Sample.permuta
      /\ exists w',
           dispatch Sample.format Sample2.props_permuta Sample.admin_no_slot
             SalvarTokenClick Sample2.mounted_permuta = Some (tt, w')
           /\ heap w' !! 6%positive = Some Sample.permuta).
Proof.
  split; (split; [reflexivity |]); (split; [reflexivity |]).
  - destruct (save_untouched_draft Sample.format Sample.props
                Sample.admin_no_slot Sample.store Sample.mounted
                Sample.consulta eq_refl eq_refl)
      as (l & a' & w' & Hrun & _).
    exists w'. split; [exact Hrun |].
    vm_compute in Hrun. injection Hrun as <-. reflexivity.
  - destruct (save_untouched_draft Sample.format Sample2.props_permuta
                Sample.admin_no_slot Sample.store Sample2.mounted_permuta
                Sample.permuta eq_refl eq_refl)
      as (l & a' & w' & Hrun & _).
    exists w'. split; [exact Hrun |].
    vm_compute in Hrun. injection Hrun as <-. reflexivity.
Defined.

Lemma input_change_step {Date : Type} (format : Date -> string -> string)
    (props : Props) (env : Env Date) (e : Event) (w : World) :
  is_input_change e = true ->
  exists w1,
    dispatch format props env e w = Some (tt, w1)
    /\ calls w1 = calls w
    /\ heap w1 = heap w
    /\ isReschedulingOpen (hooks w1) = isReschedulingOpen (hooks w).
Proof.
  intros He. destruct e; try discriminate He;
    eexists; (split; [reflexivity |]); cbn; auto.
Qed.

(** X5. The four text inputs are silent: whatever is typed into the
    token, date, start and end fields, in any order and any number of
    times, no call is made, the store is unchanged and the dialog stays
    open or closed as it was. *)
Theorem input_changes_silent {Date : Type}
    (format : Date -> string -> string) (props : Props)
    (es : list (Env Date * Event)) (w : World)
    (Hes : forallb (fun step => is_input_change (snd step)) es = true) :
  exists w',
    run format props es w = Some (tt, w')
    /\ calls w' = calls w
    /\ heap w' = heap w
    /\ isReschedulingOpen (hooks w') = isReschedulingOpen (hooks w).
Proof.
  revert w. induction es as [| [env e] es IH]; intros w.
  - exists w. repeat split.
  - cbn [forallb snd] in Hes. apply andb_true_iff in Hes as [He Hes].
    destruct (input_change_step format props env e w He)
      as (w1 & Hstep & Hcalls1 & Hheap1 & Hopen1).
    destruct (IH Hes w1) as (w' & Hrun & Hcalls & Hheap & Hopen).
    exists w'. cbn [run]. rewrite (bind_Some _ _ _ _ _ Hstep).
    split; [exact Hrun |]. repeat split; congruence.
Qed.

Lemma input_changes_silent_typing :
  forallb (fun step => is_input_change (snd step)) Sample2.typing = true
  /\ hooks_after (run Sample.format Sample.props Sample2.typing
                    Sample.mounted)
     = Some {| isReschedulingOpen := false;
               newDate := "2030-07-01";
               newStartTime := "09:00";
               newEndTime := "09:30";
               insuranceToken := "XY" |}
  /\ calls_after (run Sample.format Sample.props Sample2.typing
                    Sample.mounted) = Some [].
Proof.
  split; [reflexivity |].
  destruct (input_changes_silent Sample.format Sample.props Sample2.typing
              Sample.mounted eq_refl) as (w' & Hrun & Hcalls & _).
  rewrite Hrun. cbn [hooks_after calls_after]. rewrite Hcalls.
  split; [| reflexivity].
  vm_compute in Hrun. injection Hrun as <-. reflexivity.
Defined.

(** X6. Whatever slot the collaborator suggests when the dialog opens,
    once the user has typed a date, a start and an end, confirming
    reschedules to exactly the typed values; the trace gains the slot
    query and that one reschedule call, and the dialog ends closed. *)
Theorem open_edit_confirm {Date : Type} (format : Date -> string -> string)
    (props : Props) (env env' : Env Date) (w : World) (a : Appointment.t)
    (d s e : string)
    (Happt : heap w !! appointment props = Some a) :
  exists w',
    run format props
      [(env, ReagendarClick); (env', NewDateChange d);
       (env', NewStartTimeChange s); (env', NewEndTimeChange e);
       (env', ConfirmarReagendamentoClick)] w = Some (tt, w')
    /\ calls w' =
         (calls w ++
          [findNextAvailableSlot (Appointment.psychologistId a);
           rescheduleAppointment (Appointment.id a) d s e])%list
    /\ isReschedulingOpen (hooks w') = false
    /\ heap w' = heap w.
Proof.
  cbn [run]. run_handler Happt.
  destruct (nextAvailableSlot env (Appointment.psychologistId a));
    run_handler Happt; eexists; (split; [reflexivity |]);
    cbn [heap hooks calls isReschedulingOpen];
    rewrite <- app_assoc; auto.
Qed.

Lemma open_edit_confirm_sample :
  heap Sample.mounted !! appointment Sample.props = Some Sample.consulta
  /\ calls_after (run Sample.format Sample.props Sample2.open_edit_confirm
                    Sample.mounted)
     = Some [findNextAvailableSlot "psy-3";
             rescheduleAppointment "apt-17" "2030-07-01" "09:00" "09:30"].
Proof.
  split; [reflexivity |].
  destruct (open_edit_confirm Sample.format Sample.props Sample.admin_slot
              Sample.admin_slot Sample.mounted Sample.consulta
              "2030-07-01" "09:00" "09:30" eq_refl)
    as (w' & Hrun & Hcalls & _).
  unfold Sample2.open_edit_confirm. rewrite Hrun. cbn [calls_after].
  rewrite Hcalls. reflexivity.
Defined.

(** X7. Opening the dialog and confirming at once: if the collaborator
    suggested a slot, the reschedule call asks for that slot (its date
    formatted as yyyy-MM-dd); if it suggested none, the call asks for
    whatever the draft held before the dialog was opened. *)
Theorem open_then_confirm {Date : Type} (format : Date -> string -> string)
    (props : Props) (env env' : Env Date) (w : World) (a : Appointment.t)
    (Happt : heap w !! appointment props = Some a) :
  exists w',
    run format props
      [(env, ReagendarClick); (env', ConfirmarReagendamentoClick)] w
    = Some (tt, w')
    /\ calls w' =
         (calls w ++
          [findNextAvailableSlot (Appointment.psychologistId a);
           match nextAvailableSlot env (Appointment.psychologistId a) with
           | Some slot =>
               rescheduleAppointment (Appointment.id a)
                 (format (Slot.date slot) "yyyy-MM-dd")
                 (Slot.startTime slot) (Slot.endTime slot)
           | None =>
               rescheduleAppointment (Appointment.id a)
                 (newDate (hooks w)) (newStartTime (hooks w))
                 (newEndTime (hooks w))
           end])%list
    /\ isReschedulingOpen (hooks w') = false
    /\ heap w' = heap w.
Proof.
  cbn [run]. run_handler Happt.
  destruct (nextAvailableSlot env (Appointment.psychologistId a));
    run_handler Happt; eexists; (split; [reflexivity |]);
    cbn [heap hooks calls isReschedulingOpen];
    rewrite <- app_assoc; auto.
Qed.

Lemma open_then_confirm_samples :
  heap Sample.mounted !! appointment Sample.props = Some Sample.consulta
  /\ calls_after
       (run Sample.format Sample.props
          [(Sample.admin_slot, ReagendarClick);
           (Sample.admin_slot, ConfirmarReagendamentoClick)] Sample.mounted)
     = Some [findNextAvailableSlot "psy-3";
             rescheduleAppointment "apt-17" "2030-06-03" "10:00" "11:00"]
  /\ calls_after
       (run Sample.format Sample.props
          [(Sample.admin_no_slot, ReagendarClick);
           (Sample.admin_no_slot, ConfirmarReagendamentoClick)]
          Sample.mounted)
     = Some [findNextAvailableSlot "psy-3";
             rescheduleAppointment "apt-17" "2030-05-20" "14:00" "15:00"].
Proof.
  split; [reflexivity |]. split.
  - destruct (open_then_confirm Sample.format Sample.props Sample.admin_slot
                Sample.admin_slot Sample.mounted Sample.consulta eq_refl)
      as (w' & Hrun & Hcalls & _).
    rewrite Hrun. cbn [calls_after]. rewrite Hcalls. reflexivity.
  - destruct (open_then_confirm Sample.format Sample.props
                Sample.admin_no_slot Sample.admin_no_slot Sample.mounted
                Sample.consulta eq_refl)
      as (w' & Hrun & Hcalls & _).
    rewrite Hrun. cbn [calls_after]. rewrite Hcalls. reflexivity.
Defined.

(** Which interactions a view offers, in terms of the flags it was
    rendered from. *)
Lemma offers_view {Date : Type} (new_Date : string -> Date)
    (format : Date -> string -> string) (toFixed : float -> nat -> string)
    (env : Env Date) (a : Appointment.t) (h : Hooks) (e : Event) :
  offers (view new_Date format toFixed env a h) e = true <->
  match e with
  | TokenInputChange _ | SalvarTokenClick =>
      shouldShowTokenInput (user env) a = true
  | StatusValueChange v =>
      canManage (user env) = true
      /\ (v = "pending" \/ v = "confirmed" \/ v = "cancelled")
  | ReagendarClick | CancelarAgendamentoClick =>
      canManage (user env) = true
  | FecharClick => True
  | DialogOpenChange _ | NewDateChange _ | NewStartTimeChange _
  | NewEndTimeChange _ | CancelarClick | ConfirmarReagendamentoClick =>
      isReschedulingOpen h = true
  end.
Proof.
  unfold view, offers.
  destruct (shouldShowTokenInput (user env) a), (canManage (user env)),
    (isReschedulingOpen h); destruct e; cbn;
    rewrite ?orb_false_r, ?orb_true_iff, ?String.eqb_eq;
    intuition (try discriminate; auto).
Qed.

(** X8. An interaction is offered by the rendered view exactly under
    its gate: the token field and its save button when the token flag
    holds; a status choice when the user can manage and the choice is
    one of the three listed; the reschedule and delete buttons when the
    user can manage; the close button always; the dialog's fields and
    buttons when the dialog is open. *)
Theorem interaction_gates {Date : Type} (new_Date : string -> Date)
    (format : Date -> string -> string) (toFixed : float -> nat -> string)
    (env : Env Date) (a : Appointment.t) (h : Hooks) (e : Event) :
  offers (view new_Date format toFixed env a h) e = true <->
  match e with
  | TokenInputChange _ | SalvarTokenClick =>
      shouldShowTokenInput (user env) a = true
  | StatusValueChange v =>
      canManage (user env) = true
      /\ (v = "pending" \/ v = "confirmed" \/ v = "cancelled")
  | ReagendarClick | CancelarAgendamentoClick =>
      canManage (user env) = true
  | FecharClick => True
  | DialogOpenChange _ | NewDateChange _ | NewStartTimeChange _
  | NewEndTimeChange _ | CancelarClick | ConfirmarReagendamentoClick =>
      isReschedulingOpen h = true
  end.
Proof. apply offers_view. Qed.

Lemma session_step_balance {Date : Type} (new_Date : string -> Date)
    (format : Date -> string -> string) (toFixed : float -> nat -> string)
    (props : Props) (env : Env Date) (e : Event) (w w' : World)
    (v : list Widget) :
  render new_Date format toFixed props env w = Some v ->
  offers v e = true ->
  dispatch format props env e w = Some (tt, w') ->
  length (List.filter is_rescheduleAppointment (calls w))
  + (if isReschedulingOpen (hooks w) then 1 else 0)
  <= length (List.filter is_findNextAvailableSlot (calls w)) ->
  heap w' !! appointment props = heap w !! appointment props
  /\ length (List.filter is_rescheduleAppointment (calls w'))
     + (if isReschedulingOpen (hooks w') then 1 else 0)
     <= length (List.filter is_findNextAvailableSlot (calls w')).
Proof.
  intros Hrender Hoffer Hstep Hbal. unfold render in Hrender.
  destruct (heap w !! appointment props) as [a |] eqn:Happt;
    [| discriminate].
  injection Hrender as <-. apply offers_view in Hoffer.
  destruct (dispatch_frame format props env e w a Happt)
    as (w1 & Hstep1 & Hsub & _).
  rewrite Hstep in Hstep1. injection Hstep1 as <-.
  split; [eapply lookup_weaken; eassumption |].
  clear Hsub. destruct e; revert Hstep; run_handler Happt.
  all: try (destruct (nextAvailableSlot env _); run_handler Happt).
  all: try (destruct (confirmAnswer env _); run_handler Happt).
  all: intros Hstep; injection Hstep as <-;
    cbn [heap hooks calls isReschedulingOpen] in *.
  all: rewrite ?List.filter_app, ?length_app; cbn.
  all: try rewrite Hoffer in Hbal.
  all: repeat match goal with
              | |- context [if ?b then _ else _] => destruct b
              end.
  all: lia.
Qed.

(** X9. In every session of the user interface that starts at the
    first render, the reschedule operation has been called at most as
    often as the slot query, with one query still unused while the
    dialog is open: every reschedule call belongs to an opening of the
    dialog of its own. *)
Theorem reschedules_follow_queries {Date : Type} (new_Date : string -> Date)
    (format : Date -> string -> string) (toFixed : float -> nat -> string)
    (props : Props) (store : gmap loc Appointment.t) (w0 w : World)
    (es : list (Env Date * Event))
    (Hmount : mount props store = Some w0)
    (Hsession : session new_Date format toFixed props w0 es w) :
  length (List.filter is_rescheduleAppointment (calls w))
  + (if isReschedulingOpen (hooks w) then 1 else 0)
  <= length (List.filter is_findNextAvailableSlot (calls w)).
Proof.
  assert (Hstart :
    length (List.filter is_rescheduleAppointment (calls w0))
    + (if isReschedulingOpen (hooks w0) then 1 else 0)
    <= length (List.filter is_findNextAvailableSlot (calls w0))).
  { unfold mount in Hmount.
    destruct (store !! appointment props); [| discriminate].
    injection Hmount as <-. cbn. lia. }
  clear Hmount. induction Hsession as [w | w env e v w1 es w2 Hrender
    Hoffer Hstep Hrest IH]; [exact Hstart |].
  apply IH.
  exact (proj2 (session_step_balance _ _ _ _ _ _ _ _ _
                  Hrender Hoffer Hstep Hstart)).
Qed.

Lemma reschedules_follow_queries_busy :
  mount Sample.props Sample.store = Some Sample.mounted
  /\ exists w,
       session Sample.new_Date Sample.format Sample.toFixed Sample.props
         Sample.mounted Sample2.busy w
       /\ List.filter is_rescheduleAppointment (calls w)
          = [rescheduleAppointment "apt-17" "2030-06-03" "10:00" "11:00"]
       /\ length (List.filter is_findNextAvailableSlot (calls w)) = 2
       /\ length (List.filter is_rescheduleAppointment (calls w))
          + (if isReschedulingOpen (hooks w) then 1 else 0)
          <= length (List.filter is_findNextAvailableSlot (calls w)).
Proof.
  split; [reflexivity |].
  eexists. split; [| split; [| split]].
  - unfold Sample2.busy.
    repeat (eapply session_cons;
            [vm_compute; reflexivity | reflexivity
            | vm_compute; reflexivity |]).
    apply session_nil.
  - reflexivity.
  - reflexivity.
  - eapply (reschedules_follow_queries Sample.new_Date Sample.format
              Sample.toFixed Sample.props Sample.store Sample.mounted _
              Sample2.busy eq_refl).
    unfold Sample2.busy.
    repeat (eapply session_cons;
            [vm_compute; reflexivity | reflexivity
            | vm_compute; reflexivity |]).
    apply session_nil.
Defined.

(** X10. An interaction offered to an unprivileged user never reaches
    the status, delete, token-update or slot-query operations and never
    touches the store: all it can call is the close callback or, only
    from a dialog that is open, the reschedule operation.  With the
    dialog closed it calls the close callback and nothing else. *)
Theorem unprivileged_interaction {Date : Type} (new_Date : string -> Date)
    (format : Date -> string -> string) (toFixed : float -> nat -> string)
    (props : Props) (env : Env Date) (e : Event) (w w' : World)
    (v : list Widget)
    (Hrole : unprivileged (user env))
    (Hview : render new_Date format toFixed props env w = Some v)
    (Hoffer : offers v e = true)
    (Hstep : dispatch format props env e w = Some (tt, w')) :
  heap w' = heap w
  /\ exists new,
       calls w' = (calls w ++ new)%list
       /\ forallb is_onClose_or_reschedule new = true
       /\ (isReschedulingOpen (hooks w) = false -> new = [onClose]).
Proof.
  apply unprivileged_canManage in Hrole.
  unfold render in Hview.
  destruct (heap w !! appointment props) as [a |] eqn:Happt;
    [| discriminate].
  injection Hview as <-. apply offers_view in Hoffer.
  pose proof (shouldShowTokenInput_canManage _ a Hrole) as Htoken.
  destruct e; rewrite ?Htoken, ?Hrole in Hoffer;
    try discriminate Hoffer; try (destruct Hoffer; discriminate).
  all: revert Hstep; run_handler Happt; intros Hstep;
    injection Hstep as <-; cbn [heap hooks calls].
  all: split; [reflexivity |].
  all: first [ exists []; rewrite app_nil_r;
               split; [reflexivity |]; split; [reflexivity |];
               intros Hclosed; rewrite Hclosed in Hoffer; discriminate
             | eexists; split; [reflexivity |]; split; [reflexivity |];
               intros Hclosed; first [ reflexivity
                 | rewrite Hclosed in Hoffer; discriminate ] ].
Qed.

Lemma unprivileged_interaction_left_open :
  unprivileged (user Sample.anonymous)
  /\ render Sample.new_Date Sample.format Sample.toFixed Sample.props
       Sample.anonymous Sample2.left_open
     = Some (view Sample.new_Date Sample.format Sample.toFixed
               Sample.anonymous Sample.consulta (hooks Sample2.left_open))
  /\ offers (view Sample.new_Date Sample.format Sample.toFixed
               Sample.anonymous Sample.consulta (hooks Sample2.left_open))
       ConfirmarReagendamentoClick = true
  /\ calls_after (dispatch Sample.format Sample.props Sample.anonymous
                    ConfirmarReagendamentoClick Sample2.left_open)
     = Some [findNextAvailableSlot "psy-3";
             rescheduleAppointment "apt-17" "2030-05-20" "14:00" "15:00"]
  /\ exists w',
       dispatch Sample.format Sample.props Sample.anonymous
         ConfirmarReagendamentoClick Sample2.left_open = Some (tt, w')
       /\ heap w' = heap Sample2.left_open.
Proof.
  assert (Hanon : unprivileged (user Sample.anonymous))
    by (intros u Hu; discriminate Hu).
  split; [exact Hanon |]. split; [reflexivity |]. split; [reflexivity |].
  split; [reflexivity |].
  eexists. split; [reflexivity |].
  exact (proj1 (unprivileged_interaction Sample.new_Date Sample.format
                  Sample.toFixed Sample.props Sample.anonymous
                  ConfirmarReagendamentoClick Sample2.left_open _ _
                  Hanon eq_refl eq_refl eq_refl)).
Defined.

(** X11. When the status selector is shown, its default value is one
    of its own choices exactly when the appointment is pending,
    confirmed or cancelled; for a completed appointment, or one with an
    unknown status, the default matches none of the choices. *)
Theorem status_default_among_choices {Date : Type}
    (new_Date : string -> Date) (format : Date -> string -> string)
    (toFixed : float -> nat -> string) (env : Env Date)
    (a : Appointment.t) (h : Hooks) (d : string)
    (items : list (string * string))
    (Hshown : In (StatusSelect d items)
                (view new_Date format toFixed env a h)) :
  In d (map fst items) <->
  Appointment.status a = "pending" \/ Appointment.status a = "confirmed"
  \/ Appointment.status a = "cancelled".
Proof.
  destruct (In_view_StatusSelect _ _ _ _ _ _ _ _ Hshown) as (_ & -> & ->).
  cbn. split.
  - intros [H | [H | [H | []]]]; auto.
  - intros [H | [H | H]]; auto.
Qed.

Lemma status_default_completed :
  In (StatusSelect "completed" statusItems)
     (view Sample.new_Date Sample.format Sample.toFixed Sample.admin_no_slot
        Sample.permuta (hooks Sample2.mounted_permuta))
  /\ ~ In "completed" (map fst statusItems).
Proof.
  assert (Hshown : In (StatusSelect "completed" statusItems)
            (view Sample.new_Date Sample.format Sample.toFixed
               Sample.admin_no_slot Sample.permuta
               (hooks Sample2.mounted_permuta))).
  { cbn. right. left. reflexivity. }
  split; [exact Hshown |].
  intros Hin.
  apply (status_default_among_choices _ _ _ _ _ _ _ _ Hshown) in Hin.
  cbn in Hin. destruct Hin as [H | [H | H]]; discriminate.
Defined.

Lemma handleSaveToken_result (props : Props) (w : World)
    (a : Appointment.t) :
  heap w !! appointment props = Some a ->
  handleSaveToken props w
  = Some (tt,
          {| heap := <[fresh (dom (heap w)) :=
                         Appointment.spread_insuranceToken a
                           (insuranceToken (hooks w))]> (heap w);
             hooks := hooks w;
             calls := (calls w ++
                       [updateAppointment (fresh (dom (heap w)));
                        toast "Token salvo"
                          "O token do convênio foi salvo com sucesso."])%list
          |}).
Proof.
  intros Happt. run_handler Happt. rewrite <- app_assoc. reflexivity.
Qed.

Lemma fresh_not_appointment (props : Props) (w : World)
    (a : Appointment.t) :
  heap w !! appointment props = Some a ->
  fresh (dom (heap w)) <> appointment props.
Proof.
  intros Happt Heq. pose proof (alloc_fresh w) as Hfresh.
  rewrite Heq, Happt in Hfresh. discriminate.
Qed.

(** X12. Nothing debounces the save button: two clicks in a row make
    two update calls, each followed by its toast, and the two records
    handed over are two different new objects with the same content,
    neither of them the appointment object itself. *)
Theorem save_twice {Date : Type} (format : Date -> string -> string)
    (props : Props) (env env' : Env Date) (w : World) (a : Appointment.t)
    (Happt : heap w !! appointment props = Some a) :
  exists (l1 l2 : loc) (w' : World),
    run format props [(env, SalvarTokenClick); (env', SalvarTokenClick)] w
    = Some (tt, w')
    /\ calls w' =
         (calls w ++
          [updateAppointment l1;
           toast "Token salvo" "O token do convênio foi salvo com sucesso.";
           updateAppointment l2;
           toast "Token salvo" "O token do convênio foi salvo com sucesso."])
         %list
    /\ l1 <> l2
    /\ l1 <> appointment props
    /\ l2 <> appointment props
    /\ heap w' !! l1
       = Some (Appointment.spread_insuranceToken a (insuranceToken (hooks w)))
    /\ heap w' !! l2
       = Some (Appointment.spread_insuranceToken a (insuranceToken (hooks w)))
    /\ heap w' !! appointment props = Some a.
Proof.
  pose proof (handleSaveToken_result props w a Happt) as Hfirst.
  pose proof (fresh_not_appointment props w a Happt) as Hne1.
  set (l1 := fresh (dom (heap w))) in *.
  set (w1 := {| heap := <[l1 := _]> (heap w); hooks := hooks w;
                calls := _ |}) in Hfirst.
  assert (Happt1 : heap w1 !! appointment props = Some a).
  { subst w1. cbn [heap]. rewrite lookup_insert_ne by exact Hne1.
    exact Happt. }
  pose proof (handleSaveToken_result props w1 a Happt1) as Hsecond.
  pose proof (fresh_not_appointment props w1 a Happt1) as Hne2.
  pose proof (alloc_fresh w1) as Hfresh2.
  set (l2 := fresh (dom (heap w1))) in *.
  assert (Hne12 : l1 <> l2).
  { intros Heq. rewrite <- Heq in Hfresh2. subst w1. cbn [heap] in Hfresh2.
    rewrite lookup_insert_eq in Hfresh2. discriminate. }
  exists l1, l2. eexists. split.
  - cbn [run dispatch]. rewrite (bind_Some _ _ _ _ _ Hfirst).
    rewrite (bind_Some _ _ _ _ _ Hsecond). reflexivity.
  - cbn [heap hooks calls]. subst w1. cbn [heap hooks calls].
    split; [rewrite <- app_assoc; reflexivity |].
    split; [exact Hne12 |]. split; [exact Hne1 |]. split; [exact Hne2 |].
    split; [| split].
    + rewrite lookup_insert_ne by (intros Heq; apply Hne12; symmetry;
                                   exact Heq).
      apply lookup_insert_eq.
    + apply lookup_insert_eq.
    + exact (eq_trans (lookup_insert_ne _ _ _ _ Hne2) Happt1).
Qed.

Lemma save_twice_sample :
  heap Sample.inverted !! appointment Sample.props = Some Sample.consulta
  /\ calls_after (run Sample.format Sample.props Sample2.save_twice
                    Sample.inverted)
     = Some [findNextAvailableSlot "psy-3";
             updateAppointment 6%positive;
             toast "Token salvo" "O token do convênio foi salvo com sucesso.";
             updateAppointment 7%positive;
             toast "Token salvo"
               "O token do convênio foi salvo com sucesso."].
Proof.
  split; [reflexivity |].
  destruct (save_twice Sample.format Sample.props Sample.admin_no_slot
              Sample.admin_no_slot Sample.inverted Sample.consulta eq_refl)
    as (l1 & l2 & w' & Hrun & _).
  unfold Sample2.save_twice. rewrite Hrun.
  vm_compute in Hrun. injection Hrun as <-. reflexivity.
Defined.

(** X13. What each interaction can change.  Only the save button
    changes the store; the handlers of the status selector, the delete
    button, the save button and the close button leave all hook state
    as it is (nothing is updated optimistically); and the token draft
    changes only when the token field is typed in, so neither saving
    nor rescheduling clears it. *)
Theorem dispatch_footprint {Date : Type} (format : Date -> string -> string)
    (props : Props) (env : Env Date) (e : Event) (w w' : World)
    (Hstep : dispatch format props env e w = Some (tt, w')) :
  (e <> SalvarTokenClick -> heap w' = heap w)
  /\ (sets_state e = false -> hooks w' = hooks w)
  /\ ((forall typed, e <> TokenInputChange typed) ->
      insuranceToken (hooks w') = insuranceToken (hooks w)).
Proof.
  destruct (heap w !! appointment props) as [a |] eqn:Happt.
  - destruct e; revert Hstep; run_handler Happt.
    all: try (destruct (nextAvailableSlot env _); run_handler Happt).
    all: try (destruct (confirmAnswer env _); run_handler Happt).
    all: intros Hstep; injection Hstep as <-; cbn.
    all: repeat split; try reflexivity; try discriminate.
    all: intros Hno; first [ contradiction | exfalso; eapply Hno; reflexivity ].
  - destruct e; revert Hstep; run_handler Happt.
    all: try (destruct (confirmAnswer env _); run_handler Happt).
    all: intros Hstep; try discriminate Hstep; injection Hstep as <-; cbn.
    all: repeat split; try reflexivity; try discriminate.
    all: intros Hno; first [ contradiction | exfalso; eapply Hno; reflexivity ].
Qed.

Lemma dispatch_footprint_confirm :
  exists w',
    dispatch Sample.format Sample.props Sample.admin_no_slot
      ConfirmarReagendamentoClick Sample.inverted = Some (tt, w')
    /\ heap w' = Sample.store
    /\ insuranceToken (hooks w') = "AUTH-123".
Proof.
  eexists. split; [reflexivity |].
  destruct (dispatch_footprint Sample.format Sample.props
              Sample.admin_no_slot ConfirmarReagendamentoClick
              Sample.inverted _ eq_refl) as (Hheap & _ & Htoken).
  split.
  - apply Hheap. discriminate.
  - apply Htoken. discriminate.
Defined.

Lemma shouldShowTokenInput_iff_aux (user : option User.t)
    (a : Appointment.t) :
  shouldShowTokenInput user a = true ->
  Appointment.paymentMethod a = "insurance"
  /\ (Appointment.status a = "pending"
      \/ Appointment.status a = "confirmed").
Proof.
  unfold shouldShowTokenInput.
  rewrite !andb_true_iff, orb_true_iff, !String.eqb_eq. tauto.
Qed.

(** X14. For a user who can manage, an appointment that is not paid by
    insurance, or that is neither pending nor confirmed (a completed or
    cancelled one, say), is shown without the token field but with all
    the management controls: the panel, the status selector, the
    reschedule and delete buttons, the close button and the dialog. *)
Theorem manager_view_without_token {Date : Type}
    (new_Date : string -> Date) (format : Date -> string -> string)
    (toFixed : float -> nat -> string) (env : Env Date)
    (a : Appointment.t) (h : Hooks)
    (Hcan : canManage (user env) = true)
    (Hno : Appointment.paymentMethod a <> "insurance"
           \/ (Appointment.status a <> "pending"
               /\ Appointment.status a <> "confirmed")) :
  view new_Date format toFixed env a h
  = [DetailPanel (details new_Date format toFixed a);
     StatusSelect (Appointment.status a)
       [("pending", "Pendente"); ("confirmed", "Confirmado");
        ("cancelled", "Cancelado")];
     ReagendarButton; CancelarAgendamentoButton; FecharButton;
     RescheduleDialog (isReschedulingOpen h)
       (newDate h) (newStartTime h) (newEndTime h)].
Proof.
  assert (Htoken : shouldShowTokenInput (user env) a = false).
  { apply not_true_iff_false. intros Hshow.
    apply shouldShowTokenInput_iff_aux in Hshow.
    destruct Hshow as (Hpay & Hstatus). tauto. }
  unfold view. rewrite Htoken, Hcan. reflexivity.
Qed.

Lemma manager_view_completed :
  canManage (user Sample.admin_no_slot) = true
  /\ Appointment.status Sample.permuta = "completed"
  /\ view Sample.new_Date Sample.format Sample.toFixed Sample.admin_no_slot
       Sample.permuta (hooks Sample2.mounted_permuta)
     = [DetailPanel (details Sample.new_Date Sample.format Sample.toFixed
                       Sample.permuta);
        StatusSelect "completed"
          [("pending", "Pendente"); ("confirmed", "Confirmado");
           ("cancelled", "Cancelado")];
        ReagendarButton; CancelarAgendamentoButton; FecharButton;
        RescheduleDialog false "2030-05-21" "09:00" "10:00"].
Proof.
  split; [reflexivity |]. split; [reflexivity |].
  assert (Hpay : Appointment.paymentMethod Sample.permuta <> "insurance")
    by discriminate.
  rewrite (manager_view_without_token Sample.new_Date Sample.format
             Sample.toFixed Sample.admin_no_slot Sample.permuta
             (hooks Sample2.mounted_permuta) eq_refl (or_introl Hpay)).
  reflexivity.
Defined.
